(** * pandera/dtypes.py: the [PandasDtype] enumeration

    A shallow embedding of [PandasDtype]: its members and their declared
    values, the [str_alias] property, the two lookup class methods
    [from_str_alias] and [from_pandas_api_type], and the overridden
    [__eq__] and [__hash__].

    Python [str] values are objects: [==] compares their characters,
    [id] returns their identity.  [__eq__] uses the former and [__hash__]
    the latter, so strings are modelled with both components. *)

From stdpp Require Import gmap strings list fin_maps.
From Stdlib Require Import String ZArith.

Open Scope string_scope.

(** ** Python values *)

(** A [str] object: its identity (what [id] returns) and its characters. *)
Record PyStr := mkStr { str_id : N; chars : string }.

(** [id(o)] on a string object. *)
Definition py_id (o : PyStr) : N := str_id o.

(** [a == b] on two [str] objects compares characters only. *)
Definition str_eq (a b : PyStr) : bool := bool_decide (chars a = chars b).

(** A dict display [{k1: v1, ..., kn: vn}] with string keys: entries are
    inserted left to right, so a later entry overrides an earlier one with
    the same key. *)
Definition dict_of {V} (l : list (string * V)) : gmap string V :=
  list_to_map (reverse l).

(** ** Module-level state

    The module constants computed once at import (lines 25-26), and the
    identity of the string constants compiled into the module.  The
    constants whose identity is observed are the declared values (lines
    89-112) and the "object" of [str_alias] (line 120): CPython keeps one
    object per identifier-like constant, and the remaining ones occur
    once, so a constant is located by its characters. *)
Record Runtime := {
  _DEFAULT_PANDAS_INT_TYPE : PyStr;
  _DEFAULT_PANDAS_FLOAT_TYPE : PyStr;
  const_id : string -> N;
}.

(** The object a string literal of the module evaluates to. *)
Definition lit (rt : Runtime) (s : string) : PyStr := mkStr (const_id rt s) s.

(** One address holds one object: two strings with the same identity have
    the same characters. *)
Record heap_wf (rt : Runtime) : Prop := {
  wf_const : forall s1 s2, const_id rt s1 = const_id rt s2 -> s1 = s2;
  wf_int_const : forall s,
    str_id (_DEFAULT_PANDAS_INT_TYPE rt) = const_id rt s ->
    chars (_DEFAULT_PANDAS_INT_TYPE rt) = s;
  wf_float_const : forall s,
    str_id (_DEFAULT_PANDAS_FLOAT_TYPE rt) = const_id rt s ->
    chars (_DEFAULT_PANDAS_FLOAT_TYPE rt) = s;
  wf_int_float :
    str_id (_DEFAULT_PANDAS_INT_TYPE rt) = str_id (_DEFAULT_PANDAS_FLOAT_TYPE rt) ->
    chars (_DEFAULT_PANDAS_INT_TYPE rt) = chars (_DEFAULT_PANDAS_FLOAT_TYPE rt);
}.

(** Both cached defaults are the module's own constant objects (as when
    the host library hands back interned strings). *)
Definition defaults_interned (rt : Runtime) : Prop :=
  _DEFAULT_PANDAS_INT_TYPE rt = lit rt (chars (_DEFAULT_PANDAS_INT_TYPE rt)) /\
  _DEFAULT_PANDAS_FLOAT_TYPE rt = lit rt (chars (_DEFAULT_PANDAS_FLOAT_TYPE rt)).

(** ** The enumeration (lines 89-112) *)

Inductive PandasDtype :=
| Bool | DateTime | Timedelta | Category
| Float | Float16 | Float32 | Float64
| Int | Int8 | Int16 | Int32 | Int64
| UInt8 | UInt16 | UInt32 | UInt64
| Object | String.

#[global] Instance PandasDtype_eq_dec : EqDecision PandasDtype.
Proof. solve_decision. Defined.

Definition members : list PandasDtype :=
  [Bool; DateTime; Timedelta; Category; Float; Float16; Float32; Float64;
   Int; Int8; Int16; Int32; Int64; UInt8; UInt16; UInt32; UInt64;
   Object; String].

(** The characters of a member's declared value. *)
Definition value_chars (t : PandasDtype) : string :=
  match t with
  | Bool => "bool"
  | DateTime => "datetime64[ns]"
  | Timedelta => "timedelta64[ns]"
  | Category => "category"
  | Float => "float"
  | Float16 => "float16"
  | Float32 => "float32"
  | Float64 => "float64"
  | Int => "int"
  | Int8 => "int8"
  | Int16 => "int16"
  | Int32 => "int32"
  | Int64 => "int64"
  | UInt8 => "uint8"
  | UInt16 => "uint16"
  | UInt32 => "uint32"
  | UInt64 => "uint64"
  | Object => "object"
  | String => "string"
  end.

(** The members whose declared value names a fixed bit width. *)
Definition concrete_width : list PandasDtype :=
  [Float16; Float32; Float64; Int8; Int16; Int32; Int64;
   UInt8; UInt16; UInt32; UInt64].

(** ** Values other than strings, and exceptions *)

(** The two attributes [__eq__] reads from its argument. *)
Inductive Attr := attr_value | attr_str_alias.

(** What an attribute of a foreign object holds here: [None], a [str] or
    an [int], the values whose comparison with a [str] is decided by the
    [str] alone.  Attribute values that bring a comparison of their own
    are not represented. *)
Inductive Atom :=
| ANone
| AStr (s : PyStr)
| AInt (z : Z).

(** The arguments [__eq__] is applied to: [None], a member, a plain
    string, a number, or an instance of some other class, described by
    the two attributes of interest ([None] when the instance lacks it). *)
Inductive PyVal :=
| PyNone
| PyDtype (t : PandasDtype)
| PyString (s : PyStr)
| PyInt (z : Z)
| PyObject (obj_value obj_str_alias : option Atom).

Inductive exn := AttributeError (a : Attr).

Inductive result (A : Type) :=
| Ok (a : A)
| Raise (e : exn).
Arguments Ok {A} a.
Arguments Raise {A} e.

#[global] Instance result_ret : MRet result := fun _ a => Ok a.
#[global] Instance result_bind : MBind result := fun _ _ f m =>
  match m with
  | Ok a => f a
  | Raise e => Raise e
  end.

(** [s == x] for a [str] [s]: only another [str] with the same characters
    is equal. *)
Definition str_eq_atom (s : PyStr) (x : Atom) : bool :=
  match x with
  | AStr s' => str_eq s s'
  | ANone | AInt _ => false
  end.

Section dtypes.
Variable rt : Runtime.

(** [self.value] *)
Definition value (self : PandasDtype) : PyStr := lit rt (value_chars self).

(** [str_alias] (lines 114-121) *)
Definition str_alias (self : PandasDtype) : PyStr :=
  default (value self)
    (dict_of [("int", _DEFAULT_PANDAS_INT_TYPE rt);
              ("float", _DEFAULT_PANDAS_FLOAT_TYPE rt);
              ("string", lit rt "object")] !! chars (value self)).

(** Attribute access [o.a] for the two attributes of interest. *)
Definition getattr (o : PyVal) (a : Attr) : result Atom :=
  match o with
  | PyDtype t =>
      Ok (AStr (match a with
                | attr_value => value t
                | attr_str_alias => str_alias t
                end))
  | PyObject v sa =>
      match (match a with attr_value => v | attr_str_alias => sa end) with
      | Some x => Ok x
      | None => Raise (AttributeError a)
      end
  | PyNone | PyString _ | PyInt _ => Raise (AttributeError a)
  end.

(** [__eq__] (lines 177-184) *)
Definition __eq__ (self : PandasDtype) (other : PyVal) : result bool :=
  match other with
  | PyNone => Ok false
  | _ =>
      if str_eq (value self) (lit rt "string") then
        v ← getattr other attr_value;
        mret (str_eq_atom (value self) v)
      else
        v ← getattr other attr_str_alias;
        mret (str_eq_atom (str_alias self) v)
  end.

(** [__hash__] (lines 186-193) *)
Definition __hash__ (self : PandasDtype) : N :=
  let hash_obj :=
    match self with
    | Int => _DEFAULT_PANDAS_INT_TYPE rt
    | Float => _DEFAULT_PANDAS_FLOAT_TYPE rt
    | _ => str_alias self
    end in
  py_id hash_obj.
End dtypes.

(** The table of [from_str_alias] (lines 131-151). *)
Definition str_alias_table : list (string * PandasDtype) :=
  [("bool", Bool);
   ("datetime64[ns]", DateTime);
   ("timedelta64[ns]", Timedelta);
   ("category", Category);
   ("float", Float);
   ("float16", Float16);
   ("float32", Float32);
   ("float64", Float64);
   ("int", Int);
   ("int8", Int8);
   ("int16", Int16);
   ("int32", Int32);
   ("int64", Int64);
   ("uint8", UInt8);
   ("uint16", UInt16);
   ("uint32", UInt32);
   ("uint64", UInt64);
   ("object", Object);
   ("string", String)].

(** [from_str_alias] (lines 123-151); the lookup depends on the
    characters of the key only. *)
Definition from_str_alias (str_alias : string) : option PandasDtype :=
  dict_of str_alias_table !! str_alias.

(** The table of [from_pandas_api_type] (lines 165-175). *)
Definition pandas_api_table : list (string * PandasDtype) :=
  [("string", String);
   ("floating", Float);
   ("integer", Int);
   ("categorical", Category);
   ("boolean", Bool);
   ("datetime64", DateTime);
   ("datetime", DateTime);
   ("timedelta64", Timedelta);
   ("timedelta", Timedelta)].

(** [from_pandas_api_type] (lines 153-175); [startswith] is
    [String.prefix]: the prefix "mixed" is ASCII, so testing it on the
    encoded bytes agrees with testing it on the characters. *)
Definition from_pandas_api_type (pandas_api_type : string) : option PandasDtype :=
  if String.prefix "mixed" pandas_api_type then Some Object
  else dict_of pandas_api_table !! pandas_api_type.

(** ** Concrete runtimes *)

(** Addresses of the module's string constants: even, one per string. *)
Definition const_addr (s : string) : N := 2 * Npos (encode s).

(** CPython on a platform whose default integer is 64 bits wide: the two
    cached strings are built at import by [str(...)], hence objects of
    their own (odd addresses), distinct from every constant. *)
Definition cpython64 : Runtime :=
  {| _DEFAULT_PANDAS_INT_TYPE := mkStr 1 "int64";
     _DEFAULT_PANDAS_FLOAT_TYPE := mkStr 3 "float64";
     const_id := const_addr |}.

(** The same with a 32-bit default integer. *)
Definition cpython32 : Runtime :=
  {| _DEFAULT_PANDAS_INT_TYPE := mkStr 1 "int32";
     _DEFAULT_PANDAS_FLOAT_TYPE := mkStr 3 "float64";
     const_id := const_addr |}.

(** A runtime in which the cached strings happen to be the interned
    constants. *)
Definition interned64 : Runtime :=
  {| _DEFAULT_PANDAS_INT_TYPE := mkStr (const_addr "int64") "int64";
     _DEFAULT_PANDAS_FLOAT_TYPE := mkStr (const_addr "float64") "float64";
     const_id := const_addr |}.

(** ** Specification-side definitions *)

(** [hasattr(o, a)]: the attribute access does not raise. *)
Definition hasattr (rt : Runtime) (o : PyVal) (a : Attr) : bool :=
  match getattr rt o a with
  | Ok _ => true
  | Raise _ => false
  end.

(** The attribute of its argument that [__eq__] reads, by receiver. *)
Definition eq_attr (self : PandasDtype) : Attr :=
  match self with
  | String => attr_value
  | _ => attr_str_alias
  end.

(** The second argument of a comparison between a member and either a
    member or [None]. *)
Definition arg (b : option PandasDtype) : PyVal :=
  from_option PyDtype PyNone b.

(** The nine inferred kinds, each with the member it stands for, written
    as a function by cases. *)
Definition inferred_kind (s : string) : option PandasDtype :=
  if decide (s = "string") then Some String
  else if decide (s = "floating") then Some Float
  else if decide (s = "integer") then Some Int
  else if decide (s = "categorical") then Some Category
  else if decide (s = "boolean") then Some Bool
  else if decide (s = "datetime64") then Some DateTime
  else if decide (s = "datetime") then Some DateTime
  else if decide (s = "timedelta64") then Some Timedelta
  else if decide (s = "timedelta") then Some Timedelta
  else None.

Definition inferred_kinds : list string :=
  ["string"; "floating"; "integer"; "categorical"; "boolean";
   "datetime64"; "datetime"; "timedelta64"; "timedelta"].

(** The resolved string of each member, by cases. *)
Definition resolved (rt : Runtime) (t : PandasDtype) : PyStr :=
  match t with
  | Int => _DEFAULT_PANDAS_INT_TYPE rt
  | Float => _DEFAULT_PANDAS_FLOAT_TYPE rt
  | String => lit rt "object"
  | _ => value rt t
  end.

(** ** Module constants *)

(** [NUMPY_NONNULLABLE_INT_DTYPES] (lines 17-20) *)
Definition NUMPY_NONNULLABLE_INT_DTYPES : list string :=
  ["int"; "int_"; "int8"; "int16"; "int32"; "int64";
   "uint8"; "uint16"; "uint32"; "uint64"].

(** * Properties *)

(** Refute a membership [H : x ∈ [y1; ...; yn]] in which [x] differs from
    every [yi]. *)
Ltac absurd_elem H :=
  repeat (apply elem_of_cons in H as [H | H]; [congruence |]);
  by apply elem_of_nil in H.

(** ** Dict displays *)

Section dict.
Context {V : Type}.
Implicit Types (l : list (string * V)) (k : string) (v : V).

Lemma dict_of_nil : dict_of (@nil (string * V)) = ∅.
Proof. reflexivity. Qed.

Lemma dict_of_snoc l k v : dict_of (l ++ [(k, v)]) = <[k:=v]> (dict_of l).
Proof. unfold dict_of. rewrite reverse_snoc. apply list_to_map_cons. Qed.

Lemma dict_of_lookup_None l k : dict_of l !! k = None <-> k ∉ l.*1.
Proof.
  unfold dict_of. rewrite <- not_elem_of_list_to_map.
  by rewrite fmap_reverse, elem_of_reverse.
Qed.

Lemma dict_of_lookup_Some_elem l k v : dict_of l !! k = Some v -> (k, v) ∈ l.
Proof.
  unfold dict_of. intros H%elem_of_list_to_map_2.
  by rewrite elem_of_reverse in H.
Qed.

Lemma dict_of_lookup_Some l k v :
  NoDup (l.*1) -> (k, v) ∈ l -> dict_of l !! k = Some v.
Proof.
  intros Hnd Hin. unfold dict_of. apply elem_of_list_to_map_1.
  - by rewrite fmap_reverse, reverse_Permutation.
  - by apply elem_of_reverse.
Qed.
End dict.

(** ** Declared values *)

#[global] Instance value_chars_inj : Inj (=) (=) value_chars.
Proof. intros a b; destruct a, b; simpl; intros H; first [reflexivity | discriminate H]. Qed.

Lemma value_chars_string t : value_chars t = "string" <-> t = String.
Proof. split; [apply (inj value_chars t String) | by intros ->]. Qed.

Lemma chars_value rt t : chars (value rt t) = value_chars t.
Proof. reflexivity. Qed.

Lemma str_alias_table_keys : str_alias_table.*1 = value_chars <$> members.
Proof. reflexivity. Qed.

Lemma str_alias_table_NoDup : NoDup (str_alias_table.*1).
Proof.
  rewrite str_alias_table_keys. apply (NoDup_fmap_2 _).
  unfold members. apply (bool_decide_unpack _). by vm_compute.
Qed.

Lemma from_str_alias_value t : from_str_alias (value_chars t) = Some t.
Proof. by destruct t; vm_compute. Qed.

Lemma from_str_alias_Some s t : from_str_alias s = Some t <-> value_chars t = s.
Proof.
  split; [| intros <-; apply from_str_alias_value].
  intros H%dict_of_lookup_Some_elem.
  unfold str_alias_table in H.
  repeat (apply elem_of_cons in H as [[= -> ->] | H]; [reflexivity |]).
  by apply elem_of_nil in H.
Qed.

Lemma from_str_alias_None s :
  from_str_alias s = None <-> s ∉ value_chars <$> members.
Proof. unfold from_str_alias. by rewrite dict_of_lookup_None, str_alias_table_keys. Qed.

(** ** [str_alias] *)

Lemma str_alias_resolved rt t : str_alias rt t = resolved rt t.
Proof. by destruct t. Qed.

Lemma getattr_dtype_str_alias rt t :
  getattr rt (PyDtype t) attr_str_alias = Ok (AStr (str_alias rt t)).
Proof. reflexivity. Qed.

Lemma getattr_dtype_value rt t :
  getattr rt (PyDtype t) attr_value = Ok (AStr (value rt t)).
Proof. reflexivity. Qed.

Lemma str_alias_plain rt t :
  t ∉ [Int; Float; String] -> str_alias rt t = value rt t.
Proof.
  intros H. destruct t; try reflexivity; exfalso; apply H;
    repeat first [apply list_elem_of_here | apply list_elem_of_further].
Qed.

Lemma str_alias_concrete_width rt :
  Forall (fun t => chars (str_alias rt t) = value_chars t) concrete_width.
Proof. repeat constructor. Qed.

(** ** [__eq__] *)

Lemma eq_None rt t : __eq__ rt t PyNone = Ok false.
Proof. reflexivity. Qed.

Lemma eq_dtype rt a b :
  __eq__ rt a (PyDtype b) =
  Ok (if bool_decide (value_chars a = "string")
      then bool_decide (value_chars b = "string")
      else bool_decide (chars (str_alias rt a) = chars (str_alias rt b))).
Proof.
  destruct a; try reflexivity.
  change (__eq__ rt String (PyDtype b))
    with (Ok (A:=bool) (bool_decide ("string" = value_chars b))).
  f_equal. by apply bool_decide_ext.
Qed.

Lemma eq_dtype_true rt a b :
  __eq__ rt a (PyDtype b) = Ok true <->
  (a = String /\ b = String) \/
  (a <> String /\ chars (str_alias rt a) = chars (str_alias rt b)).
Proof.
  rewrite eq_dtype.
  destruct (bool_decide (value_chars a = "string")) eqn:Ha.
  - apply bool_decide_eq_true in Ha. apply value_chars_string in Ha as ->.
    split.
    + intros [= Hb%bool_decide_eq_true%value_chars_string]. by left.
    + intros [[_ ->] | [Hn _]]; [reflexivity | done].
  - apply bool_decide_eq_false in Ha. rewrite value_chars_string in Ha.
    split.
    + intros [= Hb%bool_decide_eq_true]. by right.
    + intros [[-> _] | [_ Hc]]; [done |]. by rewrite bool_decide_eq_true_2.
Qed.

(** C1: [a == b] is false when [b] is absent; when [a]'s declared value is
    "string" it is true only if [b]'s declared value is "string" too;
    otherwise it is true exactly when the resolved strings [str_alias] of
    [a] and [b] have the same characters.  In particular [Int] (resp.
    [Float]) equals exactly the fixed-width member whose declared value is
    the cached default integer (resp. float) string. *)
Theorem eq_spec : forall rt,
  (forall a (b : option PandasDtype),
     __eq__ rt a (arg b) =
     Ok (match b with
         | None => false
         | Some b =>
             if bool_decide (value_chars a = "string")
             then bool_decide (value_chars b = "string")
             else bool_decide (chars (str_alias rt a) = chars (str_alias rt b))
         end)) /\
  (forall a b,
     __eq__ rt a (PyDtype b) = Ok true <->
     (a = String /\ b = String) \/
     (a <> String /\ chars (str_alias rt a) = chars (str_alias rt b))) /\
  Forall (fun w => __eq__ rt Int (PyDtype w) =
                   Ok (bool_decide (chars (_DEFAULT_PANDAS_INT_TYPE rt) = value_chars w)))
         concrete_width /\
  Forall (fun w => __eq__ rt Float (PyDtype w) =
                   Ok (bool_decide (chars (_DEFAULT_PANDAS_FLOAT_TYPE rt) = value_chars w)))
         concrete_width.
Proof.
  intros rt. split; [| split; [| split]].
  - intros a [b |]; [apply eq_dtype | apply eq_None].
  - apply eq_dtype_true.
  - repeat constructor.
  - repeat constructor.
Qed.

(** C3: [str_alias] is defined on every member and never raises: [Int]
    gives the cached default integer string, [Float] the cached default
    float string, [String] gives "object", every other member its own
    declared value; with a 64-bit default the alias of [Int] is "int64",
    with a 32-bit default it is "int32". *)
Theorem str_alias_spec : forall rt,
  str_alias rt Int = _DEFAULT_PANDAS_INT_TYPE rt /\
  str_alias rt Float = _DEFAULT_PANDAS_FLOAT_TYPE rt /\
  chars (str_alias rt String) = "object" /\
  (forall t, str_alias rt t = resolved rt t) /\
  (forall t, t ∉ [Int; Float; String] -> str_alias rt t = value rt t) /\
  (forall t, getattr rt (PyDtype t) attr_str_alias = Ok (AStr (str_alias rt t))) /\
  chars (str_alias cpython64 Int) = "int64" /\
  chars (str_alias cpython32 Int) = "int32".
Proof.
  intros rt. repeat split; try reflexivity.
  - apply str_alias_resolved.
  - apply str_alias_plain.
Qed.

(** C7: [Int == Int] is true; [Int == Float] is false when the cached
    default integer and float strings differ; [String == Object] is
    false; a member compared with [None] is never equal. *)
Theorem eq_examples : forall rt,
  __eq__ rt Int (PyDtype Int) = Ok true /\
  (chars (_DEFAULT_PANDAS_INT_TYPE rt) <> chars (_DEFAULT_PANDAS_FLOAT_TYPE rt) ->
   __eq__ rt Int (PyDtype Float) = Ok false) /\
  __eq__ rt String (PyDtype Object) = Ok false /\
  forall t, __eq__ rt t PyNone = Ok false.
Proof.
  intros rt. split; [| split; [| split]].
  - rewrite eq_dtype. simpl. by rewrite bool_decide_eq_true_2.
  - intros Hdiff. rewrite eq_dtype. simpl. by rewrite bool_decide_eq_false_2.
  - reflexivity.
  - intros t. apply eq_None.
Qed.

Lemma eq_examples_witness :
  __eq__ cpython64 Int (PyDtype Float) = Ok false.
Proof.
  apply (proj1 (proj2 (eq_examples cpython64))). simpl. discriminate.
Defined.

(** C8: [from_str_alias] maps "category" to [Category], "object" to
    [Object] and "string" to [String], although the alias of [String] is
    "object": going from [String] to its alias and back yields [Object]. *)
Theorem from_str_alias_examples : forall rt,
  from_str_alias "category" = Some Category /\
  from_str_alias "object" = Some Object /\
  from_str_alias "string" = Some String /\
  chars (str_alias rt String) = "object" /\
  from_str_alias (chars (str_alias rt String)) = Some Object.
Proof. intros rt. repeat split; by vm_compute. Qed.

(** C9: [__eq__] is not symmetric: [Object == String] is true while
    [String == Object] is false. *)
Theorem eq_not_symmetric : forall rt,
  __eq__ rt Object (PyDtype String) = Ok true /\
  __eq__ rt String (PyDtype Object) = Ok false /\
  exists a b, __eq__ rt a (PyDtype b) = Ok true /\ __eq__ rt b (PyDtype a) = Ok false.
Proof.
  intros rt. split; [reflexivity | split; [reflexivity |]].
  by exists Object, String.
Qed.

(** ** Round trip through [from_str_alias] *)

Lemma concrete_width_roundtrip rt u :
  u ∈ concrete_width ->
  from_str_alias (value_chars u) = Some u /\
  chars (str_alias rt u) = value_chars u /\
  u <> Int /\ u <> Float.
Proof.
  intros Hu. split; [apply from_str_alias_value |].
  split.
  - pose proof (str_alias_concrete_width rt) as HF.
    rewrite Forall_forall in HF. by apply HF.
  - unfold concrete_width in Hu. split; intros ->; absurd_elem Hu.
Qed.

(** C4: when the cached default integer and float strings are declared
    values of fixed-width members, [from_str_alias (str_alias v)] is a
    member whose resolved string has the characters of [str_alias v]; for
    [Int] it is the fixed-width member named by the cached default integer
    string, for [Float] the one named by the cached default float string,
    and neither [Int] nor [Float]; for [String] it is [Object], and for
    every other member the member itself. *)
Theorem str_alias_roundtrip rt v
  (Hint : chars (_DEFAULT_PANDAS_INT_TYPE rt) ∈ value_chars <$> concrete_width)
  (Hfloat : chars (_DEFAULT_PANDAS_FLOAT_TYPE rt) ∈ value_chars <$> concrete_width) :
  exists w,
    from_str_alias (chars (str_alias rt v)) = Some w /\
    chars (str_alias rt w) = chars (str_alias rt v) /\
    (v = Int ->
     w ∈ concrete_width /\
     value_chars w = chars (_DEFAULT_PANDAS_INT_TYPE rt) /\
     w <> Int /\ w <> Float) /\
    (v = Float ->
     w ∈ concrete_width /\
     value_chars w = chars (_DEFAULT_PANDAS_FLOAT_TYPE rt) /\
     w <> Int /\ w <> Float) /\
    (v = String -> w = Object) /\
    (v ∉ [Int; Float; String] -> w = v).
Proof.
  apply list_elem_of_fmap in Hint as (ui & Hi & Hui).
  apply list_elem_of_fmap in Hfloat as (uf & Hf & Huf).
  destruct (concrete_width_roundtrip rt ui Hui) as (Hi1 & Hi2 & Hi3 & Hi4).
  destruct (concrete_width_roundtrip rt uf Huf) as (Hf1 & Hf2 & Hf3 & Hf4).
  destruct v;
    try (eexists; split; [by vm_compute |]; split; [reflexivity |];
         split; [discriminate |]; split; [discriminate |];
         split; [first [discriminate | reflexivity] |];
         first [reflexivity
               | intros H; exfalso; apply H;
                 repeat first [apply list_elem_of_here
                              | apply list_elem_of_further]]).
  - exists uf. change (str_alias rt Float) with (_DEFAULT_PANDAS_FLOAT_TYPE rt).
    rewrite Hf2, Hf. split; [exact Hf1 |]. split; [reflexivity |].
    split; [discriminate |]. split; [done |]. split; [discriminate |].
    intros H. exfalso. apply H.
    repeat first [apply list_elem_of_here | apply list_elem_of_further].
  - exists ui. change (str_alias rt Int) with (_DEFAULT_PANDAS_INT_TYPE rt).
    rewrite Hi2, Hi. split; [exact Hi1 |]. split; [reflexivity |].
    split; [done |]. split; [discriminate |]. split; [discriminate |].
    intros H. exfalso. apply H.
    repeat first [apply list_elem_of_here | apply list_elem_of_further].
Qed.

Lemma str_alias_roundtrip_witness :
  exists w,
    from_str_alias (chars (str_alias cpython64 Float)) = Some w /\
    chars (str_alias cpython64 w) = chars (str_alias cpython64 Float) /\
    (Float = Int ->
     w ∈ concrete_width /\
     value_chars w = chars (_DEFAULT_PANDAS_INT_TYPE cpython64) /\
     w <> Int /\ w <> Float) /\
    (Float = Float ->
     w ∈ concrete_width /\
     value_chars w = chars (_DEFAULT_PANDAS_FLOAT_TYPE cpython64) /\
     w <> Int /\ w <> Float) /\
    (Float = String -> w = Object) /\
    (Float ∉ [Int; Float; String] -> w = Float).
Proof.
  apply (str_alias_roundtrip cpython64 Float);
    apply (bool_decide_unpack _); vm_compute; exact I.
Defined.

(** ** [from_pandas_api_type] *)

(** [startswith]: the input is the prefix followed by some rest. *)
Lemma prefix_append s1 s2 :
  String.prefix s1 s2 = true <-> exists rest, s2 = s1 ++ rest.
Proof.
  revert s2. induction s1 as [| a s1 IH]; intros s2.
  - split; [intros _; by exists s2 | intros _; by destruct s2].
  - assert (Hcons : forall r, String.String a s1 ++ r = String.String a (s1 ++ r))
      by reflexivity.
    destruct s2 as [| b s2]; simpl.
    + split; [discriminate | intros [rest Hr]; by rewrite Hcons in Hr].
    + destruct (Ascii.ascii_dec a b) as [-> | Hab].
      * rewrite IH. split; intros [rest Hr]; exists rest;
          rewrite Hcons in *; congruence.
      * split; [discriminate | intros [rest Hr]; rewrite Hcons in Hr; congruence].
Qed.

Lemma pandas_api_table_lookup s :
  dict_of pandas_api_table !! s = inferred_kind s.
Proof.
  unfold inferred_kind.
  repeat (match goal with
          | |- context [decide (s = ?k)] =>
              destruct (decide (s = k)) as [-> | ?]; [by vm_compute |]
          end).
  apply dict_of_lookup_None. simpl. intros Hs. absurd_elem Hs.
Qed.

Lemma inferred_kind_None s : inferred_kind s = None <-> s ∉ inferred_kinds.
Proof.
  rewrite <- pandas_api_table_lookup, dict_of_lookup_None. reflexivity.
Qed.

Lemma from_pandas_api_type_mixed rest :
  from_pandas_api_type ("mixed" ++ rest) = Some Object.
Proof. unfold from_pandas_api_type. by destruct rest. Qed.

(** C5: an input that begins with "mixed" resolves to [Object], before
    any table lookup; so do "mixed", "mixed-integer" and
    "mixed-integer-float".  Any other input resolves to its entry among
    the nine keys string, floating, integer, categorical, boolean,
    datetime64, datetime, timedelta64, timedelta, and to nothing when it
    is not one of them. *)
Theorem from_pandas_api_type_spec :
  (forall s, from_pandas_api_type s =
             if String.prefix "mixed" s then Some Object else inferred_kind s) /\
  (forall s, String.prefix "mixed" s = true <-> exists rest, s = "mixed" ++ rest) /\
  (forall rest, from_pandas_api_type ("mixed" ++ rest) = Some Object) /\
  from_pandas_api_type "mixed" = Some Object /\
  from_pandas_api_type "mixed-integer" = Some Object /\
  from_pandas_api_type "mixed-integer-float" = Some Object /\
  pandas_api_table.*1 = inferred_kinds /\
  (forall s, inferred_kind s = None <-> s ∉ inferred_kinds).
Proof.
  split; [| split; [| split; [| repeat split]]].
  - intros s. unfold from_pandas_api_type.
    by rewrite pandas_api_table_lookup.
  - intros s. apply prefix_append.
  - apply from_pandas_api_type_mixed.
  - apply inferred_kind_None.
  - apply inferred_kind_None.
Qed.

(** ** Absence instead of exceptions *)

Lemma from_pandas_api_type_None s :
  from_pandas_api_type s = None <->
  String.prefix "mixed" s = false /\ s ∉ inferred_kinds.
Proof.
  unfold from_pandas_api_type. rewrite pandas_api_table_lookup.
  destruct (String.prefix "mixed" s).
  - split; [discriminate | intros [? _]; discriminate].
  - rewrite inferred_kind_None. tauto.
Qed.

(** C6: the lookups never raise on strings: [from_str_alias] and
    [from_pandas_api_type] return a member or nothing for every string,
    and nothing for a string they do not recognise, such as
    "not-a-real-dtype" and "unknown"; [str_alias] and a comparison with a
    member or [None] return without raising too. *)
Theorem lookups_total : forall rt,
  (forall s, from_str_alias s = None \/
             exists t, from_str_alias s = Some t /\ value_chars t = s) /\
  (forall s, from_str_alias s = None <-> s ∉ value_chars <$> members) /\
  (forall s, from_pandas_api_type s = None \/
             exists t, from_pandas_api_type s = Some t) /\
  (forall s, from_pandas_api_type s = None <->
             String.prefix "mixed" s = false /\ s ∉ inferred_kinds) /\
  from_str_alias "not-a-real-dtype" = None /\
  from_pandas_api_type "unknown" = None /\
  (forall t, getattr rt (PyDtype t) attr_str_alias = Ok (AStr (str_alias rt t))) /\
  (forall a b, exists r, __eq__ rt a (arg b) = Ok r).
Proof.
  intros rt. split; [| split; [| split; [| split; [| repeat split]]]].
  - intros s. destruct (from_str_alias s) as [t |] eqn:E; [right | by left].
    exists t. split; [reflexivity | by apply from_str_alias_Some].
  - apply from_str_alias_None.
  - intros s. destruct (from_pandas_api_type s) as [t |]; [right; by exists t | by left].
  - apply from_pandas_api_type_None.
  - intros a [b |]; eexists; [apply (eq_dtype rt a b) | apply eq_None].
Qed.

(** ** Comparison with values that are not members *)

Lemma eq_attr_value rt t :
  str_eq (value rt t) (lit rt "string") =
  match eq_attr t with attr_value => true | attr_str_alias => false end.
Proof. by destruct t. Qed.

Lemma eq_without_attr rt t v :
  v <> PyNone -> hasattr rt v (eq_attr t) = false ->
  __eq__ rt t v = Raise (AttributeError (eq_attr t)).
Proof.
  intros Hv Hno. unfold hasattr in Hno. unfold __eq__.
  rewrite eq_attr_value.
  destruct v as [| u | s | z | [x |] [y |]]; [done | ..];
    destruct (eq_attr t); simpl in *; first [discriminate Hno | reflexivity].
Qed.

(** C10, as stated, fails: an instance of another class that carries a
    [value] attribute equal to "string" (a member of another enumeration,
    say) is neither a member nor [None], yet [String == v] returns true
    instead of raising. *)
Lemma eq_foreign_object_returns :
  let v := PyObject (Some (AStr (mkStr 7 "string"))) None in
  v <> PyNone /\ (forall t, v <> PyDtype t) /\
  __eq__ cpython64 String v = Ok true /\
  ~ (forall rt t v, v <> PyNone -> (forall u, v <> PyDtype u) ->
       exists a, __eq__ rt t v = Raise (AttributeError a)).
Proof.
  simpl. split; [discriminate | split; [discriminate | split; [reflexivity |]]].
  intros H.
  destruct (H cpython64 String (PyObject (Some (AStr (mkStr 7 "string"))) None))
    as [a Ha]; discriminate.
Qed.

(** C10, amended: for every member [t] and every argument other than
    [None] that lacks the attribute [__eq__] reads ([value] when [t] is
    [String], [str_alias] otherwise), in particular every plain string
    and every number, [t == v] raises an attribute error. *)
Theorem eq_raises_without_attr : forall rt t,
  (forall v, v <> PyNone -> hasattr rt v (eq_attr t) = false ->
             __eq__ rt t v = Raise (AttributeError (eq_attr t))) /\
  (forall s, __eq__ rt t (PyString s) = Raise (AttributeError (eq_attr t))) /\
  (forall z, __eq__ rt t (PyInt z) = Raise (AttributeError (eq_attr t))).
Proof.
  intros rt t. split; [| split].
  - apply eq_without_attr.
  - intros s. by apply eq_without_attr.
  - intros z. by apply eq_without_attr.
Qed.

(** ** [__hash__] *)

Lemma hash_str_alias rt t : __hash__ rt t = py_id (str_alias rt t).
Proof. by destruct t. Qed.

Lemma const_addr_inj s1 s2 : const_addr s1 = const_addr s2 -> s1 = s2.
Proof.
  unfold const_addr. intros H.
  assert (encode s1 = encode s2) as He by lia.
  by apply (inj encode) in He.
Qed.

Lemma cpython64_wf : heap_wf cpython64.
Proof.
  split; simpl.
  - apply const_addr_inj.
  - intros s. unfold const_addr. lia.
  - intros s. unfold const_addr. lia.
  - discriminate.
Qed.

Lemma interned64_defaults : defaults_interned interned64.
Proof. by split. Qed.

(** Every resolved string is one of the two cached objects or a constant
    of the module. *)
Lemma resolved_cases rt t :
  resolved rt t = _DEFAULT_PANDAS_INT_TYPE rt \/
  resolved rt t = _DEFAULT_PANDAS_FLOAT_TYPE rt \/
  exists s, resolved rt t = lit rt s.
Proof. destruct t; simpl; eauto. Qed.

(** Equal hashes mean equal resolved characters: one address, one object. *)
Lemma hash_eq_same_alias rt a b :
  heap_wf rt -> __hash__ rt a = __hash__ rt b ->
  chars (str_alias rt a) = chars (str_alias rt b).
Proof.
  intros [Hc Hi Hf Hif]. rewrite !hash_str_alias, !str_alias_resolved.
  unfold py_id.
  destruct (resolved_cases rt a) as [-> | [-> | [sa ->]]],
           (resolved_cases rt b) as [-> | [-> | [sb ->]]];
    simpl; intros H; auto.
  - symmetry. by apply Hif.
  - symmetry. by apply Hi.
  - symmetry. by apply Hf.
Qed.

(** When the cached defaults are the module's own constants, members that
    compare equal hash alike. *)
Lemma hash_consistent_when_interned rt a b :
  defaults_interned rt ->
  __eq__ rt a (PyDtype b) = Ok true -> __hash__ rt a = __hash__ rt b.
Proof.
  intros [Hi Hf] [[-> ->] | [_ Hab]]%eq_dtype_true; [reflexivity |].
  rewrite !hash_str_alias.
  assert (forall t, str_alias rt t = lit rt (chars (str_alias rt t))) as Hlit.
  { intros t. rewrite str_alias_resolved.
    destruct (resolved_cases rt t) as [-> | [-> | [s ->]]]; auto. }
  by rewrite (Hlit a), (Hlit b), Hab.
Qed.

Lemma hash_consistent_when_interned_witness :
  __hash__ interned64 Int = __hash__ interned64 Int64.
Proof.
  apply (hash_consistent_when_interned interned64 Int Int64).
  - apply interned64_defaults.
  - reflexivity.
Defined.

(** Whenever the cached default integer string is an object of its own,
    [Int] equals the fixed-width member it names and hashes differently. *)
Lemma hash_differs_for_fresh_default rt w :
  w ∈ concrete_width ->
  chars (_DEFAULT_PANDAS_INT_TYPE rt) = value_chars w ->
  str_id (_DEFAULT_PANDAS_INT_TYPE rt) <> const_id rt (value_chars w) ->
  __eq__ rt Int (PyDtype w) = Ok true /\ __hash__ rt Int <> __hash__ rt w.
Proof.
  intros Hw Hchars Hid. split.
  - apply eq_dtype_true. right. split; [discriminate |].
    destruct (concrete_width_roundtrip rt w Hw) as (_ & -> & _). exact Hchars.
  - rewrite (hash_str_alias rt w).
    unfold concrete_width in Hw.
    repeat (apply elem_of_cons in Hw as [-> | Hw]; [exact Hid |]).
    by apply elem_of_nil in Hw.
Qed.

(** C2: [__hash__] is the identity of the resolved string: of the cached
    default integer string for [Int], of the cached default float string
    for [Float], of [str_alias] for every member.  It is not consistent
    with [__eq__]: with a 64-bit default built at import as an object of
    its own, [Int == Int64] is true while the two hashes differ. *)
Theorem hash_not_consistent_with_eq :
  (forall rt,
     __hash__ rt Int = py_id (_DEFAULT_PANDAS_INT_TYPE rt) /\
     __hash__ rt Float = py_id (_DEFAULT_PANDAS_FLOAT_TYPE rt) /\
     forall t, __hash__ rt t = py_id (str_alias rt t)) /\
  heap_wf cpython64 /\
  __eq__ cpython64 Int (PyDtype Int64) = Ok true /\
  __hash__ cpython64 Int <> __hash__ cpython64 Int64.
Proof.
  split; [| split; [| split]].
  - intros rt. split; [reflexivity | split; [reflexivity |]].
    apply hash_str_alias.
  - apply cpython64_wf.
  - reflexivity.
  - by vm_compute.
Qed.

(** * Further properties of the lookups *)

(** X1: [from_str_alias] inverts the declared values: it returns a member
    exactly for that member's declared value, so every member is recovered
    from its value and no two strings resolve to the same member. *)
Theorem from_str_alias_inverts_value :
  (forall t, from_str_alias (value_chars t) = Some t) /\
  (forall s t, from_str_alias s = Some t <-> value_chars t = s) /\
  (forall s1 s2 t,
     from_str_alias s1 = Some t -> from_str_alias s2 = Some t -> s1 = s2).
Proof.
  split; [apply from_str_alias_value | split; [apply from_str_alias_Some |]].
  intros s1 s2 t H1%from_str_alias_Some H2%from_str_alias_Some. congruence.
Qed.

(** X2: resolving a recognised alias and taking [str_alias] of the result
    gives the alias back, unless the member found is [Int], [Float] or
    [String]. *)
Theorem str_alias_of_from_str_alias rt s t :
  from_str_alias s = Some t -> t ∉ [Int; Float; String] ->
  chars (str_alias rt t) = s.
Proof.
  intros Hs%from_str_alias_Some Ht.
  by rewrite (str_alias_plain rt t Ht).
Qed.

Lemma str_alias_of_from_str_alias_witness :
  chars (str_alias cpython64 Int64) = "int64".
Proof.
  apply (str_alias_of_from_str_alias cpython64 "int64" Int64).
  - reflexivity.
  - intros H. absurd_elem H.
Defined.

(** X3: resolving the alias of a member is idempotent when the cached
    defaults are declared values of fixed-width members: the member found
    for [str_alias v] is found again for its own [str_alias]. *)
Theorem from_str_alias_idempotent rt v w
  (Hint : chars (_DEFAULT_PANDAS_INT_TYPE rt) ∈ value_chars <$> concrete_width)
  (Hfloat : chars (_DEFAULT_PANDAS_FLOAT_TYPE rt) ∈ value_chars <$> concrete_width) :
  from_str_alias (chars (str_alias rt v)) = Some w ->
  from_str_alias (chars (str_alias rt w)) = Some w.
Proof.
  intros Hw.
  assert (forall u, u ∈ concrete_width ->
            from_str_alias (chars (str_alias rt u)) = Some u) as Hconc.
  { intros u Hu. destruct (concrete_width_roundtrip rt u Hu) as (? & -> & _).
    apply from_str_alias_value. }
  destruct v;
    try (vm_compute in Hw; injection Hw as <-; by vm_compute).
  - apply from_str_alias_Some in Hw.
    change (str_alias rt Float) with (_DEFAULT_PANDAS_FLOAT_TYPE rt) in Hw.
    rewrite <- Hw in Hfloat. apply (proj1 (list_elem_of_fmap_inj value_chars _ _)) in Hfloat.
    by apply Hconc.
  - apply from_str_alias_Some in Hw.
    change (str_alias rt Int) with (_DEFAULT_PANDAS_INT_TYPE rt) in Hw.
    rewrite <- Hw in Hint. apply (proj1 (list_elem_of_fmap_inj value_chars _ _)) in Hint.
    by apply Hconc.
Qed.

Lemma from_str_alias_idempotent_witness :
  from_str_alias (chars (str_alias cpython64 Int64)) = Some Int64.
Proof.
  apply (from_str_alias_idempotent cpython64 Int Int64);
    first [reflexivity | apply (bool_decide_unpack _); vm_compute; exact I].
Defined.

(** X4: [from_pandas_api_type] returns [Object] exactly for the inputs
    that begin with "mixed": no table entry yields [Object]. *)
Theorem from_pandas_api_type_Object : forall s,
  from_pandas_api_type s = Some Object <-> exists rest, s = "mixed" ++ rest.
Proof.
  intros s. rewrite <- prefix_append. unfold from_pandas_api_type.
  destruct (String.prefix "mixed" s); [done |].
  split; [| discriminate].
  intros H%dict_of_lookup_Some_elem. unfold pandas_api_table in H.
  absurd_elem H.
Qed.

(** X5: [from_pandas_api_type] only ever returns one of eight members;
    it never returns a fixed-width member. *)
Theorem from_pandas_api_type_range s t :
  from_pandas_api_type s = Some t ->
  t ∈ [String; Float; Int; Category; Bool; DateTime; Timedelta; Object] /\
  t ∉ concrete_width.
Proof.
  unfold from_pandas_api_type.
  destruct (String.prefix "mixed" s).
  - intros [= <-]. split; [| intros H; absurd_elem H].
    repeat first [apply list_elem_of_here | apply list_elem_of_further].
  - intros H%dict_of_lookup_Some_elem. unfold pandas_api_table in H.
    repeat (apply elem_of_cons in H as [[= -> ->] | H];
            [split; [| intros H; absurd_elem H];
             repeat first [apply list_elem_of_here | apply list_elem_of_further] |]).
    by apply elem_of_nil in H.
Qed.

Lemma from_pandas_api_type_range_witness :
  Float ∈ [String; Float; Int; Category; Bool; DateTime; Timedelta; Object] /\
  Float ∉ concrete_width.
Proof. apply (from_pandas_api_type_range "floating" Float). reflexivity. Defined.

(** X6: every entry of the table of [from_pandas_api_type] is reachable:
    no key is shadowed by a later duplicate or caught by the "mixed"
    prefix rule. *)
Theorem pandas_api_table_reachable s t :
  (s, t) ∈ pandas_api_table -> from_pandas_api_type s = Some t.
Proof.
  intros H. unfold pandas_api_table in H.
  repeat (apply elem_of_cons in H as [[= -> ->] | H]; [by vm_compute |]).
  by apply elem_of_nil in H.
Qed.

Lemma pandas_api_table_reachable_witness :
  from_pandas_api_type "datetime" = Some DateTime.
Proof.
  apply (pandas_api_table_reachable "datetime" DateTime).
  apply (bool_decide_unpack _). vm_compute. exact I.
Defined.

(** X7: when the cached default integer string is listed in
    [NUMPY_NONNULLABLE_INT_DTYPES], the list is closed under resolution:
    a listed name that [from_str_alias] recognises resolves to a member
    whose [str_alias] is listed again. *)
Theorem nonnullable_int_closed rt s t
  (Hint : chars (_DEFAULT_PANDAS_INT_TYPE rt) ∈ NUMPY_NONNULLABLE_INT_DTYPES) :
  s ∈ NUMPY_NONNULLABLE_INT_DTYPES -> from_str_alias s = Some t ->
  chars (str_alias rt t) ∈ NUMPY_NONNULLABLE_INT_DTYPES.
Proof.
  intros Hs Ht. unfold NUMPY_NONNULLABLE_INT_DTYPES in Hs.
  repeat (apply elem_of_cons in Hs as [-> | Hs];
          [vm_compute in Ht; first [discriminate Ht | injection Ht as <-];
           first [exact Hint
                 | apply (bool_decide_unpack _); vm_compute; exact I] |]).
  by apply elem_of_nil in Hs.
Qed.

Lemma nonnullable_int_closed_witness :
  chars (str_alias cpython64 Int) ∈ NUMPY_NONNULLABLE_INT_DTYPES.
Proof.
  apply (nonnullable_int_closed cpython64 "int" Int);
    first [reflexivity | apply (bool_decide_unpack _); vm_compute; exact I].
Defined.

(** * Further properties of [__eq__] and [__hash__] *)

Lemma value_chars_not_string t : t <> String -> value_chars t <> "string".
Proof. intros Ht H. by apply value_chars_string in H. Qed.

Lemma eq_dtype_off_String rt a b :
  a <> String ->
  __eq__ rt a (PyDtype b) =
  Ok (bool_decide (chars (str_alias rt a) = chars (str_alias rt b))).
Proof.
  intros Ha%value_chars_not_string. rewrite eq_dtype.
  by rewrite (bool_decide_eq_false_2 _ Ha).
Qed.

(** X8: every member equals itself. *)
Theorem eq_reflexive : forall rt t, __eq__ rt t (PyDtype t) = Ok true.
Proof.
  intros rt t. apply eq_dtype_true.
  destruct (decide (t = String)) as [-> | Ht]; [by left | by right].
Qed.

(** X9: [__eq__] is transitive on members. *)
Theorem eq_transitive rt a b c :
  __eq__ rt a (PyDtype b) = Ok true ->
  __eq__ rt b (PyDtype c) = Ok true ->
  __eq__ rt a (PyDtype c) = Ok true.
Proof.
  intros [[-> ->] | [Ha Hab]]%eq_dtype_true [[Hb ->] | [Hb Hbc]]%eq_dtype_true;
    apply eq_dtype_true.
  - by left.
  - done.
  - right. split; [done |]. by subst b.
  - right. split; [done | congruence].
Qed.

Lemma eq_transitive_witness : __eq__ cpython64 Int (PyDtype Int) = Ok true.
Proof. apply (eq_transitive cpython64 Int Int64 Int); reflexivity. Defined.

(** X10: away from [String], [__eq__] is symmetric. *)
Theorem eq_symmetric_off_String rt a b :
  a <> String -> b <> String ->
  __eq__ rt a (PyDtype b) = __eq__ rt b (PyDtype a).
Proof.
  intros Ha Hb. rewrite !eq_dtype_off_String by done.
  f_equal. by apply bool_decide_ext.
Qed.

Lemma eq_symmetric_off_String_witness :
  __eq__ cpython64 Int (PyDtype Int64) = __eq__ cpython64 Int64 (PyDtype Int).
Proof. apply (eq_symmetric_off_String cpython64 Int Int64); discriminate. Defined.

(** X11: [String] on the left equals [String] only, and the pairs on which
    [__eq__] is not symmetric are exactly those with [String] on the right
    and, on the left, another member whose resolved string is "object". *)
Theorem eq_asymmetric_pairs : forall rt,
  (forall b, __eq__ rt String (PyDtype b) = Ok true <-> b = String) /\
  (forall a b,
     __eq__ rt a (PyDtype b) = Ok true /\ __eq__ rt b (PyDtype a) <> Ok true <->
     b = String /\ a <> String /\ chars (str_alias rt a) = "object").
Proof.
  intros rt.
  assert (forall b, __eq__ rt String (PyDtype b) = Ok true <-> b = String) as HS.
  { intros b. rewrite eq_dtype_true. split.
    - by intros [[_ ->] | [? _]].
    - intros ->. by left. }
  split; [exact HS |]. intros a b. split.
  - intros [[[-> ->] | [Ha Hab]]%eq_dtype_true Hba].
    + exfalso. apply Hba. by apply HS.
    + destruct (decide (b = String)) as [-> | Hb]; [done |].
      exfalso. apply Hba. apply eq_dtype_true. by right.
  - intros (-> & Ha & Hobj). split.
    + apply eq_dtype_true. by right.
    + intros H%HS. done.
Qed.

(** X12: on members other than [Int], [Float] and [String], [__eq__] is
    identity of members. *)
Theorem eq_plain_is_identity rt a b :
  a ∉ [Int; Float; String] -> b ∉ [Int; Float; String] ->
  (__eq__ rt a (PyDtype b) = Ok true <-> a = b).
Proof.
  intros Ha Hb. split.
  - intros [[-> _] | [_ Hab]]%eq_dtype_true.
    + exfalso. apply Ha.
      repeat first [apply list_elem_of_here | apply list_elem_of_further].
    + rewrite (str_alias_plain rt a Ha), (str_alias_plain rt b Hb) in Hab.
      by apply (inj value_chars).
  - intros <-. apply eq_dtype_true.
    destruct (decide (a = String)) as [-> | Hs]; [by left | by right].
Qed.

Lemma eq_plain_is_identity_witness :
  __eq__ cpython64 Int32 (PyDtype Int64) = Ok true <-> Int32 = Int64.
Proof.
  apply (eq_plain_is_identity cpython64 Int32 Int64); intros H; absurd_elem H.
Defined.

(** X13: when the cached default integer string is the declared value of a
    fixed-width member and differs from the cached default float string,
    the members equal to [Int] are [Int] itself and the member named by
    the default, and no other. *)
Theorem eq_Int_class rt t
  (Hint : chars (_DEFAULT_PANDAS_INT_TYPE rt) ∈ value_chars <$> concrete_width)
  (Hdiff : chars (_DEFAULT_PANDAS_INT_TYPE rt) <> chars (_DEFAULT_PANDAS_FLOAT_TYPE rt)) :
  __eq__ rt Int (PyDtype t) = Ok true <->
  t = Int \/ value_chars t = chars (_DEFAULT_PANDAS_INT_TYPE rt).
Proof.
  rewrite eq_dtype_true. split.
  - intros [[? _] | [_ H]]; [discriminate |].
    rewrite !str_alias_resolved in H. simpl in H.
    destruct t; simpl in H; try (right; simpl; congruence).
    + by left.
    + rewrite H in Hint. simpl in Hint. absurd_elem Hint.
  - intros [-> | Ht]; right; (split; [discriminate |]); [reflexivity |].
    rewrite <- Ht in Hint.
    apply (proj1 (list_elem_of_fmap_inj value_chars _ _)) in Hint.
    destruct (concrete_width_roundtrip rt t Hint) as (_ & -> & _).
    by rewrite Ht.
Qed.

Lemma eq_Int_class_witness :
  __eq__ cpython64 Int (PyDtype Int64) = Ok true <->
  Int64 = Int \/ value_chars Int64 = chars (_DEFAULT_PANDAS_INT_TYPE cpython64).
Proof.
  apply (eq_Int_class cpython64 Int64).
  - apply (bool_decide_unpack _). vm_compute. exact I.
  - simpl. discriminate.
Defined.

(** X14: in a heap where one address holds one object, two members with
    the same hash have the same resolved characters, and the first equals
    the second unless it is [String]. *)
Theorem hash_collision_eq rt a b :
  heap_wf rt -> __hash__ rt a = __hash__ rt b ->
  chars (str_alias rt a) = chars (str_alias rt b) /\
  (a <> String -> __eq__ rt a (PyDtype b) = Ok true).
Proof.
  intros Hwf Hh. pose proof (hash_eq_same_alias rt a b Hwf Hh) as Hc.
  split; [exact Hc |]. intros Ha. apply eq_dtype_true. by right.
Qed.

Lemma hash_collision_eq_witness :
  chars (str_alias cpython64 Object) = chars (str_alias cpython64 String) /\
  (Object <> String -> __eq__ cpython64 Object (PyDtype String) = Ok true).
Proof.
  apply (hash_collision_eq cpython64 Object String).
  - apply cpython64_wf.
  - reflexivity.
Defined.

Lemma interned_default (o : PyStr) rt s :
  chars o = s -> str_id o = const_id rt s -> o = lit rt (chars o).
Proof. destruct o as [i c]. simpl. by intros -> ->. Qed.

(** X15: when the cached defaults are declared values of fixed-width
    members, [__hash__] agrees with [__eq__] on all members exactly when
    both cached strings are the module's own constant objects. *)
Theorem hash_consistent_iff_interned rt
  (Hint : chars (_DEFAULT_PANDAS_INT_TYPE rt) ∈ value_chars <$> concrete_width)
  (Hfloat : chars (_DEFAULT_PANDAS_FLOAT_TYPE rt) ∈ value_chars <$> concrete_width) :
  (forall a b, __eq__ rt a (PyDtype b) = Ok true -> __hash__ rt a = __hash__ rt b)
  <-> defaults_interned rt.
Proof.
  split.
  - intros Hcons.
    apply list_elem_of_fmap in Hint as (ui & Hi & Hui).
    apply list_elem_of_fmap in Hfloat as (uf & Hf & Huf).
    destruct (concrete_width_roundtrip rt ui Hui) as (_ & Hai & _).
    destruct (concrete_width_roundtrip rt uf Huf) as (_ & Haf & _).
    split.
    + apply (interned_default _ rt (value_chars ui) Hi).
      assert (__eq__ rt Int (PyDtype ui) = Ok true) as He.
      { apply eq_dtype_true. right. split; [discriminate |]. by rewrite Hai. }
      apply Hcons in He. rewrite (hash_str_alias rt ui) in He.
      rewrite (str_alias_plain rt ui) in He; [exact He |].
      intros H. unfold concrete_width in Hui.
      repeat (apply elem_of_cons in Hui as [-> | Hui]; [absurd_elem H |]).
      by apply elem_of_nil in Hui.
    + apply (interned_default _ rt (value_chars uf) Hf).
      assert (__eq__ rt Float (PyDtype uf) = Ok true) as He.
      { apply eq_dtype_true. right. split; [discriminate |]. by rewrite Haf. }
      apply Hcons in He. rewrite (hash_str_alias rt uf) in He.
      rewrite (str_alias_plain rt uf) in He; [exact He |].
      intros H. unfold concrete_width in Huf.
      repeat (apply elem_of_cons in Huf as [-> | Huf]; [absurd_elem H |]).
      by apply elem_of_nil in Huf.
  - intros Hin a b. by apply hash_consistent_when_interned.
Qed.

Lemma hash_consistent_iff_interned_witness :
  (forall a b, __eq__ interned64 a (PyDtype b) = Ok true ->
               __hash__ interned64 a = __hash__ interned64 b)
  <-> defaults_interned interned64.
Proof.
  apply (hash_consistent_iff_interned interned64);
    apply (bool_decide_unpack _); vm_compute; exact I.
Defined.
